(** * TerraformLatestRun: the "latest run" view of the terraform plugin

  A shallow embedding of
  [plugins/terraform/src/components/TerraformLatestRun/TerraformLatestRun.tsx].

  The component is a function from its props and the snapshot returned by the
  [useRuns] hook to a React element.  It registers one effect
  ([useEffect(() => { refetch(); }, [refetch])]) and then selects one of
  three element trees.  The embedding keeps these parts separate:

  - [Js]     : the few JavaScript notions the body relies on (truthiness,
               indexing, a thrown exception as a value);
  - [Model]  : the records of the hook contract ([Run], [FetchState]) and
               the element tree the JSX builds;
  - [Hooks]  : the render monad (reads the hook snapshot, registers effects,
               may throw);
  - [View]   : the component itself, line for line;
  - [React]  : mount / re-render / click, i.e. when registered effects and
               event handlers run;
  - [Screen] : queries over a rendered tree, in the style of the test
               suite's [queryByText] / [findByLabelText].  *)

From Stdlib Require Import String Ascii List Lia.
Import ListNotations.
Open Scope string_scope.
Open Scope list_scope.

(* ===================================================================== *)
(** ** JavaScript values and partial operations *)
(* ===================================================================== *)
Module Js.

(** An exception thrown while evaluating an expression. *)
Inductive Exn : Type :=
| TypeError (msg : string).

Inductive Result (A : Type) : Type :=
| Ok (a : A)
| Throw (e : Exn).
Arguments Ok {A} a.
Arguments Throw {A} e.

Definition is_ok {A} (r : Result A) : bool :=
  match r with Ok _ => true | Throw _ => false end.

(** Identity of a function object.  Two references are the same function
    exactly when [Object.is] says so; a fresh closure gets a fresh number. *)
Definition FnRef : Type := nat.

(** What a call evaluates to.  The view never looks inside. *)
Inductive Value : Type :=
| VUndefined
| VPromise (settlesWith : nat).

(** Arguments the view passes when it calls a function. *)
Inductive Arg : Type :=
| ArgMouseEvent.

(** [x ? a : b] on a value that is either [undefined] or an object.
    Objects, arrays (also the empty one) and [Error]s are truthy. *)
Definition truthy {A} (x : option A) : bool :=
  match x with Some _ => true | None => false end.

(** [xs[i]]: reading a property of [undefined] throws; reading past the end
    of an array yields [undefined]. *)
Definition index {A} (xs : option (list A)) (i : nat) : Result (option A) :=
  match xs with
  | None => Throw (TypeError "Cannot read properties of undefined")
  | Some l => Ok (nth_error l i)
  end.

(** A destructuring default, [{ x = d }]: used when the property is
    [undefined]. *)
Definition defaultTo {A} (d : A) (x : option A) : A :=
  match x with Some v => v | None => d end.

(** The double-quote character, as it appears inside JSX text. *)
Definition dquote : string := String (ascii_of_nat 34) EmptyString.

(** [needle] occurs somewhere in [hay]. *)
Fixpoint includes (needle hay : string) : bool :=
  String.prefix needle hay
  || match hay with
     | EmptyString => false
     | String _ rest => includes needle rest
     end.

End Js.
Import Js.

(* ===================================================================== *)
(** ** Data model: the hook contract and the element tree *)
(* ===================================================================== *)
Module Model.

Record User : Type := { name : option string }.
Record Plan : Type := { logs : string }.

(** One Terraform run, as [useRuns] hands it over. *)
Record Run : Type := {
  id : string;
  message : string;
  status : string;
  createdAt : string;
  confirmedBy : option User;
  plan : option Plan
}.

Record Error : Type := { errName : string; errMessage : string }.

(** The object returned by [useRuns(organization, workspaceName)]. *)
Record FetchState : Type := {
  data : option (list Run);
  error : option Error;
  isLoading : bool;
  refetch : FnRef
}.

(** [interface Props]; [hideDescription] is optional. *)
Record Props : Type := {
  organization : string;
  workspaceName : string;
  hideDescription : option bool
}.

(** The props the JSX gives to [Grid]. *)
Record GridProps : Type := {
  container : bool;
  item : bool;
  spacing : option nat;
  direction : option string;
  justifyContent : option string;
  alignItems : option string
}.

Definition gridItem : GridProps :=
  {| container := false; item := true; spacing := None; direction := None;
     justifyContent := None; alignItems := None |}.

(** React elements built by the component.  The three leaf components
    ([RefreshIcon], [ResponseErrorPanel], [TerraformLatestRunCard]) are kept
    as elements with their props, as React does before it renders them. *)
#[warnings="-register-all"] Inductive Element : Type :=
| Text (s : string)
| Grid (props : GridProps) (children : list Element)
| Typography (variant : string) (children : list Element)
| IconButton (onClick : FnRef) (ariaLabel : string) (children : list Element)
| RefreshIcon
| ResponseErrorPanel (error : Error)
| TerraformLatestRunCard (run : option Run) (workspace : string).

End Model.
Import Model.

(* ===================================================================== *)
(** ** The render monad *)
(* ===================================================================== *)
Module Hooks.

(** A statement of an effect body.  [ExprStmt f args] is the expression
    statement [f(args);]: the call is made and its value dropped.
    [ReturnCall f args] is [return f(args);]: the value becomes the
    effect's clean-up. *)
Inductive Stmt : Type :=
| ExprStmt (callee : FnRef) (args : list Arg)
| ReturnCall (callee : FnRef) (args : list Arg).

Inductive Dep : Type :=
| DepFn (f : FnRef).

(** One [useEffect(body, deps)] registration. *)
Record EffectReg : Type := { body : list Stmt; deps : list Dep }.

(** What the component reads from its surroundings during a render: the
    mocked or real [useRuns]. *)
Record Env : Type := { useRunsImpl : string -> string -> FetchState }.

Definition Hook (A : Type) : Type :=
  Env -> list EffectReg -> Result (A * list EffectReg).

Definition ret {A} (a : A) : Hook A := fun _ regs => Ok (a, regs).

Definition bind {A B} (m : Hook A) (k : A -> Hook B) : Hook B :=
  fun env regs =>
    match m env regs with
    | Ok (a, regs') => k a env regs'
    | Throw e => Throw e
    end.

Definition lift {A} (r : Result A) : Hook A :=
  fun _ regs =>
    match r with
    | Ok a => Ok (a, regs)
    | Throw e => Throw e
    end.

Definition useRuns (organization workspaceName : string) : Hook FetchState :=
  fun env regs => Ok (useRunsImpl env organization workspaceName, regs).

Definition useEffect (body : list Stmt) (deps : list Dep) : Hook unit :=
  fun _ regs => Ok (tt, regs ++ [ {| body := body; deps := deps |} ]).

End Hooks.
Import Hooks.

Declare Scope hook_scope.
Delimit Scope hook_scope with hook.
Notation "x <- m ;; k" := (Hooks.bind m (fun x => k))
  (at level 100, m at next level, right associativity) : hook_scope.
Notation "m ;;; k" := (Hooks.bind m (fun _ => k))
  (at level 100, right associativity) : hook_scope.

(* ===================================================================== *)
(** ** The component *)
(* ===================================================================== *)
Module View.

Definition title : string := "Terraform".
Definition refreshLabel : string := "Refresh".

(** The JSX text of the description, split where the source splits it:
    text, [{workspaceName}], text. *)
Definition descriptionLead : string :=
  "This contains some useful information around the terraform workspace "
  ++ dquote.
Definition descriptionTail : string := dquote ++ ".".

(** [run={data ? data[0] : undefined}] *)
Definition firstRun (data : option (list Run)) : Result (option Run) :=
  if truthy data then index data 0 else Ok None.

(** Lines 46-61: the row with the title and the refresh button. *)
Definition header (refetch : FnRef) : Element :=
  Grid {| container := true; item := false; spacing := Some 0;
          direction := Some "row"; justifyContent := Some "space-between";
          alignItems := Some "center" |}
    [ Grid gridItem [ Typography "h5" [ Text title ] ];
      Grid gridItem [ IconButton refetch refreshLabel [ RefreshIcon ] ] ].

(** Lines 63-66. *)
Definition description (workspaceName : string) : Element :=
  Typography "body2"
    [ Text descriptionLead; Text workspaceName; Text descriptionTail ].

(** Lines 44-77: the column holding header, description and card. *)
Definition fullLayout (refetch : FnRef) (workspaceName : string)
                        (card : Element) : Element :=
  Grid {| container := true; item := false; spacing := Some 2;
          direction := Some "column"; justifyContent := None;
          alignItems := None |}
    [ Grid gridItem [ header refetch;
                      Grid gridItem [ description workspaceName ] ];
      Grid gridItem [ card ] ].

(** Lines 14-79.  The hook calls come first, in source order; the effect is
    therefore registered on every render, before any of the returns. *)
Definition TerraformLatestRun (props : Props) : Hook Element :=
  (let organization := props.(organization) in
   let workspaceName := props.(workspaceName) in
   let hideDescription := defaultTo false props.(hideDescription) in
   fs <- useRuns organization workspaceName ;;
   let data := fs.(data) in
   let error := fs.(error) in
   let refetch := fs.(refetch) in
   useEffect [ ExprStmt refetch [] ] [ DepFn refetch ] ;;;
   match error with
   | Some e => ret (ResponseErrorPanel e)
   | None =>
       if hideDescription then
         run <- lift (firstRun data) ;;
         ret (TerraformLatestRunCard run workspaceName)
       else
         run <- lift (firstRun data) ;;
         ret (fullLayout refetch workspaceName
                (TerraformLatestRunCard run workspaceName))
   end)%hook.

End View.
Import View.

(* ===================================================================== *)
(** ** React: when effects and handlers run *)
(* ===================================================================== *)
Module React.

Inductive Origin : Type :=
| FromEffect
| FromHandler.

(** One observed invocation of a function the view was given. *)
Record Call : Type := { origin : Origin; callee : FnRef; args : list Arg }.

(** What the surrounding program answers when one of its functions is
    called.  A call always returns here: [refetch] is taken to be a
    function that returns, as the [FetchState] type declares it.  A
    [refetch] that throws, or a snapshot whose [refetch] is not a function,
    makes the unguarded [refetch()] of the effect raise; that case is
    outside this model, and nothing below claims that a commit cannot
    raise. *)
Definition World : Type := FnRef -> list Arg -> Value.

(** Running an effect body: the calls it makes, and the value it returns
    to React (its clean-up), if it returns one.  Calls are recorded under
    the assumption above that each of them returns. *)
Fixpoint runBody (w : World) (b : list Stmt) : list Call * option Value :=
  match b with
  | [] => ([], None)
  | ExprStmt f a :: rest =>
      let _ := w f a in
      let (calls, returned) := runBody w rest in
      ({| origin := FromEffect; callee := f; args := a |} :: calls, returned)
  | ReturnCall f a :: _ =>
      ([ {| origin := FromEffect; callee := f; args := a |} ], Some (w f a))
  end.

Definition dep_eqb (a b : Dep) : bool :=
  match a, b with DepFn f, DepFn g => Nat.eqb f g end.

(** React's comparison of two dependency arrays, element by element with
    [Object.is]. *)
Fixpoint depsEqual (prev next : list Dep) : bool :=
  match prev, next with
  | p :: ps, n :: ns => dep_eqb p n && depsEqual ps ns
  | _, _ => true
  end.

(** What React remembers about one [useEffect] call between renders. *)
Record Slot : Type := { reg : EffectReg; cleanup : option Value }.

(** A mounted component. *)
Record Instance : Type := { slots : list Slot; output : Element }.

(** First commit: every registered effect runs, in order. *)
Fixpoint commitMount (w : World) (regs : list EffectReg)
  : list Call * list Slot :=
  match regs with
  | [] => ([], [])
  | r :: rs =>
      let (calls, returned) := runBody w (body r) in
      let (calls', ss) := commitMount w rs in
      (calls ++ calls', {| reg := r; cleanup := returned |} :: ss)
  end.

(** Later commits: an effect runs again only if its dependencies differ
    from the ones of the previous render. *)
Fixpoint commitUpdate (w : World) (prev : list Slot) (regs : list EffectReg)
  : list Call * list Slot :=
  match regs, prev with
  | [], _ => ([], [])
  | _ :: _, [] => commitMount w regs
  | r :: rs, s :: ss =>
      let (calls', ss') := commitUpdate w ss rs in
      if depsEqual (deps (reg s)) (deps r)
      then (calls', {| reg := r; cleanup := cleanup s |} :: ss')
      else
        let (calls, returned) := runBody w (body r) in
        (calls ++ calls', {| reg := r; cleanup := returned |} :: ss')
  end.

Definition mount (w : World) (props : Props) (env : Env)
  : Result (Instance * list Call) :=
  match TerraformLatestRun props env [] with
  | Throw e => Throw e
  | Ok (el, regs) =>
      let (calls, ss) := commitMount w regs in
      Ok ({| slots := ss; output := el |}, calls)
  end.

Definition rerender (w : World) (inst : Instance) (props : Props) (env : Env)
  : Result (Instance * list Call) :=
  match TerraformLatestRun props env [] with
  | Throw e => Throw e
  | Ok (el, regs) =>
      let (calls, ss) := commitUpdate w (slots inst) regs in
      Ok ({| slots := ss; output := el |}, calls)
  end.

(** All elements of a tree, parents before children. *)
Fixpoint nodes (e : Element) : list Element :=
  e :: match e with
       | Grid _ cs => flat_map nodes cs
       | Typography _ cs => flat_map nodes cs
       | IconButton _ _ cs => flat_map nodes cs
       | _ => []
       end.

(** The [onClick] handlers of the controls labelled [label]. *)
Definition handlersByLabel (label : string) (e : Element) : list FnRef :=
  flat_map (fun n => match n with
                     | IconButton h l _ => if String.eqb l label then [h] else []
                     | _ => []
                     end) (nodes e).

(** A click on the control labelled [label]: React calls its handler with
    the event. *)
Definition click (w : World) (label : string) (inst : Instance) : list Call :=
  map (fun h => let _ := w h [ArgMouseEvent] in
                {| origin := FromHandler; callee := h;
                   args := [ArgMouseEvent] |})
      (handlersByLabel label (output inst)).

Inductive Event : Type :=
| Rerender (props : Props) (env : Env)
| Click (label : string).

(** Feed a mounted component a sequence of events; collect every call. *)
Fixpoint run (w : World) (inst : Instance) (events : list Event)
  : Result (Instance * list Call) :=
  match events with
  | [] => Ok (inst, [])
  | Rerender props env :: rest =>
      match rerender w inst props env with
      | Throw e => Throw e
      | Ok (inst', calls) =>
          match run w inst' rest with
          | Throw e => Throw e
          | Ok (final, calls') => Ok (final, calls ++ calls')
          end
      end
  | Click label :: rest =>
      let calls := click w label inst in
      match run w inst rest with
      | Throw e => Throw e
      | Ok (final, calls') => Ok (final, calls ++ calls')
      end
  end.

Definition session (w : World) (props : Props) (env : Env)
                   (events : list Event) : Result (Instance * list Call) :=
  match mount w props env with
  | Throw e => Throw e
  | Ok (inst, calls) =>
      match run w inst events with
      | Throw e => Throw e
      | Ok (final, calls') => Ok (final, calls ++ calls')
      end
  end.

Definition effectCall (f : FnRef) : Call :=
  {| origin := FromEffect; callee := f; args := [] |}.

Definition handlerCall (f : FnRef) : Call :=
  {| origin := FromHandler; callee := f; args := [ArgMouseEvent] |}.

Definition isEffectCall (c : Call) : bool :=
  match origin c with FromEffect => true | FromHandler => false end.

End React.
Import React.

(* ===================================================================== *)
(** ** The run-summary card *)
(* ===================================================================== *)
Module Card.

(** Modelled from the spec: what [TerraformLatestRunCard] displays.  The
    card's source is not among the files at hand; section 4.1, step 4 of the
    specification gives three sub-states: loading, no run, latest run with
    its message, status, formatted creation time and confirming user. *)
Inductive CardView : Type :=
| GettingData (workspace : string)
| NoRuns (workspace : string)
| LatestRun (workspace message status created userName : string).

(** Modelled from the spec: the confirming user's name, defaulting to the
    literal [Unknown] when the confirming-user field or its name is absent
    (card source missing). *)
Definition userNameOf (run : Run) : string :=
  match confirmedBy run with
  | Some u => defaultTo "Unknown" (name u)
  | None => "Unknown"
  end.

Section WithFormat.

(** How the card formats a creation time; the specification leaves the
    format open. *)
Variable formatTime : string -> string.

(** Modelled from the spec: the card's choice of sub-state (card source
    missing).  If the parent signals loading, the loading text; else if no
    run is provided, the empty text; else the run details. *)
Definition cardView (isLoading : option bool) (run : option Run)
                    (workspace : string) : CardView :=
  if defaultTo false isLoading then GettingData workspace
  else match run with
       | None => NoRuns workspace
       | Some r =>
           LatestRun workspace (message r) (status r)
                     (formatTime (createdAt r)) (userNameOf r)
       end.

End WithFormat.

(** Modelled from the spec: the texts of each sub-state (card source
    missing): [Getting data for workspace W], [No runs for W], and
    [Latest run for W] with the run details and a [User] label. *)
Definition cardTexts (v : CardView) : list string :=
  match v with
  | GettingData w => [ ("Getting data for workspace " ++ w)%string ]
  | NoRuns w => [ ("No runs for " ++ w)%string ]
  | LatestRun w m s c u =>
      [ ("Latest run for " ++ w)%string; m; s; c; "User"; u ]
  end.

End Card.
Import Card.

(* ===================================================================== *)
(** ** Queries over a rendered tree *)
(* ===================================================================== *)
Module Screen.

(** The text directly inside an element: its text children, joined. *)
Definition ownText (children : list Element) : string :=
  fold_right (fun c acc => match c with
                           | Text s => (s ++ acc)%string
                           | _ => acc
                           end) EmptyString children.

Definition nodeText (e : Element) : string :=
  match e with
  | Grid _ cs => ownText cs
  | Typography _ cs => ownText cs
  | IconButton _ _ cs => ownText cs
  | _ => EmptyString
  end.

(** Elements whose own text contains [needle]. *)
Definition queryByText (needle : string) (e : Element) : list Element :=
  filter (fun n => match n with
                   | Text _ => false
                   | _ => includes needle (nodeText n)
                   end) (nodes e).

(** Controls carrying [aria-label = label]. *)
Definition queryByLabelText (label : string) (e : Element) : list Element :=
  filter (fun n => match n with
                   | IconButton _ l _ => String.eqb l label
                   | _ => false
                   end) (nodes e).

(** The props of every run-summary card in the tree. *)
Definition cardsOf (e : Element) : list (option Run * string) :=
  flat_map (fun n => match n with
                     | TerraformLatestRunCard r w => [ (r, w) ]
                     | _ => []
                     end) (nodes e).

(** The errors handed to error panels in the tree. *)
Definition errorPanelsOf (e : Element) : list Error :=
  flat_map (fun n => match n with
                     | ResponseErrorPanel err => [ err ]
                     | _ => []
                     end) (nodes e).

(** The phrase the test suite looks for to find the description. *)
Definition descriptionPhrase : string :=
  "This contains some useful information".

Definition showsTitle (e : Element) : bool :=
  existsb (fun n => match n with
                    | Typography _ cs => String.eqb (ownText cs) title
                    | _ => false
                    end) (nodes e).

Definition showsDescription (e : Element) : bool :=
  negb (Nat.eqb (length (queryByText descriptionPhrase e)) 0).

Definition showsRefresh (e : Element) : bool :=
  negb (Nat.eqb (length (queryByLabelText refreshLabel e)) 0).

Definition showsCard (e : Element) : bool :=
  negb (Nat.eqb (length (cardsOf e)) 0).

(** Texts on screen that come from the view's own markup and from the
    card.  The view passes the card no loading flag, so the card sees
    none.  (What [ResponseErrorPanel] prints is Backstage's business.) *)
Definition screenTexts (formatTime : string -> string) (e : Element)
  : list string :=
  flat_map (fun n => match n with
                     | Typography _ cs => [ ownText cs ]
                     | TerraformLatestRunCard r w =>
                         cardTexts (cardView formatTime None r w)
                     | _ => []
                     end) (nodes e).

(** The first element of [data], or none: how the specification words
    [data?.[0]]. *)
Definition latest (data : option (list Run)) : option Run :=
  match data with
  | Some (r :: _) => Some r
  | _ => None
  end.

(** The effect calls a sequence of renders should produce: one call when
    the [refetch] reference differs from the previous render's, none
    otherwise. *)
Fixpoint refetchesAfter (prev : FnRef) (later : list FnRef) : list Call :=
  match later with
  | [] => []
  | f :: fs =>
      (if Nat.eqb prev f then [] else [ effectCall f ])
      ++ refetchesAfter f fs
  end.

(** The hook snapshot a render with [props] in [env] reads. *)
Definition snapshot (props : Props) (env : Env) : FetchState :=
  useRunsImpl env (organization props) (workspaceName props).

(** The [refetch] reference the hook hands out in a given render. *)
Definition refetchOf (props : Props) (env : Env) : FnRef :=
  refetch (snapshot props env).

(** The registration [useEffect(() => { f(); }, [f])]. *)
Definition refetchEffect (f : FnRef) : EffectReg :=
  {| body := [ ExprStmt f [] ]; deps := [ DepFn f ] |}.

(** The [refetch] references of the re-renders among [events]. *)
Fixpoint rerenderRefs (events : list Event) : list FnRef :=
  match events with
  | [] => []
  | Rerender p e :: rest => refetchOf p e :: rerenderRefs rest
  | Click _ :: rest => rerenderRefs rest
  end.

(** What React keeps for the [refetch] effect after it ran: its body
    returns nothing, so there is no clean-up. *)
Definition refetchSlot (f : FnRef) : Slot :=
  {| reg := refetchEffect f; cleanup := None |}.

Definition isHandlerCall (c : Call) : bool :=
  match origin c with FromHandler => true | FromEffect => false end.

(** How many of [events] are clicks on the control labelled [label]. *)
Fixpoint clicksOn (label : string) (events : list Event) : nat :=
  match events with
  | [] => 0
  | Click l :: rest =>
      (if String.eqb l label then 1 else 0) + clicksOn label rest
  | Rerender _ _ :: rest => clicksOn label rest
  end.

(** The functions the clicks on [label] among [events] reach: each click
    reaches the handler of the latest render, [current] until a re-render
    replaces it. *)
Fixpoint clickedRefs (label : string) (current : FnRef)
                     (events : list Event) : list FnRef :=
  match events with
  | [] => []
  | Click l :: rest =>
      (if String.eqb l label then [ current ] else [])
      ++ clickedRefs label current rest
  | Rerender p e :: rest => clickedRefs label (refetchOf p e) rest
  end.

(** A render that shows the header: no error, description not hidden. *)
Definition headerShown (props : Props) (env : Env) : Prop :=
  error (snapshot props env) = None
  /\ defaultTo false (hideDescription props) = false.

(** Every re-render among [events] shows the header. *)
Fixpoint headerShownThroughout (events : list Event) : Prop :=
  match events with
  | [] => True
  | Rerender p e :: rest => headerShown p e /\ headerShownThroughout rest
  | Click _ :: rest => headerShownThroughout rest
  end.

End Screen.
Import Screen.

(* ===================================================================== *)
(** ** Fixtures: the inputs of the test suite *)
(* ===================================================================== *)
Module Fixtures.

Definition testDataUndefinedName : Run :=
  {| id := "123"; message := "this is a text message"; status := "done";
     createdAt := "2023-05-24T10:23:40.172Z"; confirmedBy := None;
     plan := Some {| logs := "some text" |} |}.

Definition testDataValid : Run :=
  {| id := "testId"; message := "testMessage"; status := "testStatus";
     createdAt := "2024-01-01T00:00:00.000Z";
     confirmedBy := Some {| name := Some "testUser" |}; plan := None |}.

Definition fakeError : Error :=
  {| errName := "Error"; errMessage := "Some fake error." |}.

Definition refetchMock : FnRef := 7.

Definition mockUseRuns (runs : option (list Run)) (err : option Error)
                       (loading : bool) (f : FnRef) : Env :=
  {| useRunsImpl := fun _ _ =>
       {| data := runs; error := err; isLoading := loading; refetch := f |} |}.

Definition propsFor (hide : option bool) : Props :=
  {| organization := "gluk"; workspaceName := "demo-workspace";
     hideDescription := hide |}.

Definition quietWorld : World := fun _ _ => VUndefined.
Definition promiseWorld : World := fun f _ => VPromise f.

End Fixtures.
Import Fixtures.

(* ===================================================================== *)
(** ** Sessions in closed form *)
(* ===================================================================== *)
Module Trace.

(** Whether a render reaches the last [return] (lines 43-78), the only one
    that builds the header: no error, and the description not hidden. *)
Definition headerVisible (props : Props) (env : Env) : bool :=
  negb (truthy (error (snapshot props env)))
  && negb (defaultTo false (hideDescription props)).

(** The calls a mounted view makes while [events] arrive, given whether
    the latest render shows the header ([visible]) and which [refetch] it
    was handed ([current]).  A re-render calls the new [refetch] if it is
    another function; a click calls [current], if it lands on the refresh
    control and that control is there. *)
Fixpoint expectedTrace (visible : bool) (current : FnRef)
                       (events : list Event) : list Call :=
  match events with
  | [] => []
  | Rerender p e :: rest =>
      (if Nat.eqb current (refetchOf p e) then []
       else [ effectCall (refetchOf p e) ])
      ++ expectedTrace (headerVisible p e) (refetchOf p e) rest
  | Click l :: rest =>
      (if (String.eqb l "Refresh" && visible)%bool
       then [ handlerCall current ] else [])
      ++ expectedTrace visible current rest
  end.

(** The props and environment of the latest render after [events]. *)
Fixpoint lastFrame (props : Props) (env : Env) (events : list Event)
  : Props * Env :=
  match events with
  | [] => (props, env)
  | Rerender p e :: rest => lastFrame p e rest
  | Click _ :: rest => lastFrame props env rest
  end.

(** How many of [events] are re-renders. *)
Fixpoint rerenders (events : list Event) : nat :=
  match events with
  | [] => 0
  | Rerender _ _ :: rest => S (rerenders rest)
  | Click _ :: rest => rerenders rest
  end.

(** Every reference in [refs] is the one function [f]: the hook memoises
    [refetch]. *)
Fixpoint allSame (f : FnRef) (refs : list FnRef) : bool :=
  match refs with
  | [] => true
  | g :: rest => Nat.eqb f g && allSame f rest
  end.

(** Every reference in [refs] differs from the one before it, starting
    from [prev]: the hook hands out a new [refetch] on each render. *)
Fixpoint allFresh (prev : FnRef) (refs : list FnRef) : bool :=
  match refs with
  | [] => true
  | g :: rest => negb (Nat.eqb prev g) && allFresh g rest
  end.

(** A mounted instance is what rendering [props] in [env] leaves behind. *)
Definition rendered (inst : Instance) (props : Props) (env : Env) : Prop :=
  slots inst = [ refetchSlot (refetchOf props env) ]
  /\ TerraformLatestRun props env []
     = Ok (output inst, [ refetchEffect (refetchOf props env) ]).

End Trace.
Import Trace.

(* ===================================================================== *)
(** ** The three branches of the component *)
(* ===================================================================== *)

Lemma firstRun_latest (d : option (list Run)) : firstRun d = Ok (latest d).
Proof. destruct d as [[|r rest]|]; reflexivity. Qed.

Lemma render_error props env regs e :
  error (snapshot props env) = Some e ->
  TerraformLatestRun props env regs
  = Ok (ResponseErrorPanel e, regs ++ [ refetchEffect (refetchOf props env) ]).
Proof.
  intros He. unfold TerraformLatestRun, Hooks.bind, useRuns, useEffect.
  fold (snapshot props env). rewrite He. reflexivity.
Qed.

Lemma render_hidden props env regs :
  error (snapshot props env) = None ->
  defaultTo false (hideDescription props) = true ->
  TerraformLatestRun props env regs
  = Ok (TerraformLatestRunCard (latest (data (snapshot props env)))
                               (workspaceName props),
        regs ++ [ refetchEffect (refetchOf props env) ]).
Proof.
  intros He Hh. unfold TerraformLatestRun, Hooks.bind, useRuns, useEffect.
  fold (snapshot props env). rewrite He, Hh.
  unfold lift. rewrite firstRun_latest. reflexivity.
Qed.

Lemma render_full props env regs :
  error (snapshot props env) = None ->
  defaultTo false (hideDescription props) = false ->
  TerraformLatestRun props env regs
  = Ok (fullLayout (refetchOf props env) (workspaceName props)
          (TerraformLatestRunCard (latest (data (snapshot props env)))
                                  (workspaceName props)),
        regs ++ [ refetchEffect (refetchOf props env) ]).
Proof.
  intros He Hh. unfold TerraformLatestRun, Hooks.bind, useRuns, useEffect.
  fold (snapshot props env). rewrite He, Hh.
  unfold lift. rewrite firstRun_latest. reflexivity.
Qed.

(** Concrete renders, as the test suite sets them up. *)
Example render_error_fixture :
  TerraformLatestRun (propsFor None)
    (mockUseRuns None (Some fakeError) false refetchMock) []
  = Ok (ResponseErrorPanel fakeError, [ refetchEffect refetchMock ]).
Proof. reflexivity. Qed.

Example render_hidden_fixture :
  TerraformLatestRun (propsFor (Some true))
    (mockUseRuns (Some [testDataValid; testDataUndefinedName]) None true
                 refetchMock) []
  = Ok (TerraformLatestRunCard (Some testDataValid) "demo-workspace",
        [ refetchEffect refetchMock ]).
Proof. reflexivity. Qed.

Example index_undefined_throws :
  is_ok (index (@None (list Run)) 0) = false.
Proof. reflexivity. Qed.

Example index_past_end (r : Run) :
  index (Some [r]) 1 = Ok None.
Proof. reflexivity. Qed.

(* ===================================================================== *)
(** ** What is rendered *)
(* ===================================================================== *)

(** C1.  Whenever the hook snapshot carries an error, whatever [data],
    [isLoading] and [hideDescription] are, the component renders the error
    panel built from that error and nothing else: the tree has that single
    node, so there is no title, no refresh control, no description and no
    run-summary card. *)
Theorem error_takes_precedence props env e :
  error (snapshot props env) = Some e ->
  exists out regs,
    TerraformLatestRun props env [] = Ok (out, regs)
    /\ out = ResponseErrorPanel e
    /\ nodes out = [ ResponseErrorPanel e ]
    /\ errorPanelsOf out = [ e ]
    /\ showsRefresh out = false
    /\ showsDescription out = false
    /\ showsTitle out = false
    /\ showsCard out = false.
Proof.
  intros He. eexists _, _. split.
  - apply (render_error props env [] e He).
  - repeat split; reflexivity.
Qed.

Lemma error_takes_precedence_witness :
  exists out regs,
    TerraformLatestRun (propsFor (Some true))
      (mockUseRuns (Some [testDataValid]) (Some fakeError) true refetchMock) []
    = Ok (out, regs)
    /\ out = ResponseErrorPanel fakeError
    /\ nodes out = [ ResponseErrorPanel fakeError ]
    /\ errorPanelsOf out = [ fakeError ]
    /\ showsRefresh out = false
    /\ showsDescription out = false
    /\ showsTitle out = false
    /\ showsCard out = false.
Proof.
  apply (error_takes_precedence (propsFor (Some true))
           (mockUseRuns (Some [testDataValid]) (Some fakeError) true
                        refetchMock) fakeError).
  reflexivity.
Defined.

(** C6.  Without an error and with [hideDescription] true, the rendered
    tree is the run-summary card alone: no title, no refresh control, no
    description. *)
Theorem hidden_description_renders_card_only props env :
  error (snapshot props env) = None ->
  hideDescription props = Some true ->
  exists out regs,
    TerraformLatestRun props env [] = Ok (out, regs)
    /\ nodes out
       = [ TerraformLatestRunCard (latest (data (snapshot props env)))
                                  (workspaceName props) ]
    /\ showsTitle out = false
    /\ showsRefresh out = false
    /\ showsDescription out = false.
Proof.
  intros He Hh. eexists _, _. split.
  - apply render_hidden; [exact He | rewrite Hh; reflexivity].
  - repeat split; reflexivity.
Qed.

Lemma hidden_description_renders_card_only_witness :
  exists out regs,
    TerraformLatestRun (propsFor (Some true))
      (mockUseRuns (Some [testDataValid]) None false refetchMock) []
    = Ok (out, regs)
    /\ nodes out = [ TerraformLatestRunCard (Some testDataValid)
                                            "demo-workspace" ]
    /\ showsTitle out = false
    /\ showsRefresh out = false
    /\ showsDescription out = false.
Proof.
  apply (hidden_description_renders_card_only (propsFor (Some true))
           (mockUseRuns (Some [testDataValid]) None false refetchMock));
    reflexivity.
Defined.

(** The description element's own text always contains the phrase the
    test suite searches for. *)
Lemma description_has_phrase (w : string) :
  includes descriptionPhrase
    (nodeText (description w)) = true.
Proof. reflexivity. Qed.

(** C7.  Without an error and with [hideDescription] false (or left out),
    the rendered tree contains the fixed title, a refresh control whose
    handler is the hook's [refetch], the description sentence with the
    workspace name spliced in, and the run-summary card, whatever [data]
    and [isLoading] are. *)
Theorem full_layout_when_description_shown props env :
  error (snapshot props env) = None ->
  defaultTo false (hideDescription props) = false ->
  exists out regs,
    TerraformLatestRun props env [] = Ok (out, regs)
    /\ In (Typography "h5" [ Text "Terraform" ]) (nodes out)
    /\ queryByLabelText "Refresh" out
       = [ IconButton (refetchOf props env) "Refresh" [ RefreshIcon ] ]
    /\ (exists d, queryByText descriptionPhrase out = [ d ]
          /\ nodeText d
             = (descriptionLead ++ workspaceName props ++ descriptionTail)%string)
    /\ cardsOf out
       = [ (latest (data (snapshot props env)), workspaceName props) ]
    /\ showsTitle out = true
    /\ showsRefresh out = true
    /\ showsDescription out = true
    /\ showsCard out = true.
Proof.
  intros He Hh. eexists _, _. split.
  - apply render_full; assumption.
  - split; [ simpl; tauto | ].
    split; [ reflexivity | ].
    split; [ eexists; split; reflexivity | ].
    repeat split; reflexivity.
Qed.

Lemma full_layout_when_description_shown_witness :
  exists out regs,
    TerraformLatestRun (propsFor None)
      (mockUseRuns None None true refetchMock) []
    = Ok (out, regs)
    /\ In (Typography "h5" [ Text "Terraform" ]) (nodes out)
    /\ queryByLabelText "Refresh" out
       = [ IconButton refetchMock "Refresh" [ RefreshIcon ] ]
    /\ (exists d, queryByText descriptionPhrase out = [ d ]
          /\ nodeText d
             = (descriptionLead ++ "demo-workspace" ++ descriptionTail)%string)
    /\ cardsOf out = [ (None, "demo-workspace") ]
    /\ showsTitle out = true
    /\ showsRefresh out = true
    /\ showsDescription out = true
    /\ showsCard out = true.
Proof.
  apply (full_layout_when_description_shown (propsFor None)
           (mockUseRuns None None true refetchMock)); reflexivity.
Defined.

(** Every render succeeds and registers exactly the one [refetch] effect. *)
Lemma render_shape props env regs :
  exists out,
    TerraformLatestRun props env regs
    = Ok (out, regs ++ [ refetchEffect (refetchOf props env) ])
    /\ (forall e, error (snapshot props env) = Some e ->
                  out = ResponseErrorPanel e)
    /\ (error (snapshot props env) = None ->
        cardsOf out
        = [ (latest (data (snapshot props env)), workspaceName props) ]).
Proof.
  destruct (error (snapshot props env)) as [e|] eqn:He.
  - eexists. split; [ apply render_error; exact He | ].
    split; [ intros e' [= <-]; reflexivity | discriminate ].
  - destruct (defaultTo false (hideDescription props)) eqn:Hh;
      eexists; (split; [ first [ apply render_hidden; assumption
                               | apply render_full; assumption ] | ]);
      (split; [ discriminate | reflexivity ]).
Qed.

(** C3.  On every render without an error there is exactly one
    run-summary card; it receives the workspace name and the element at
    position 0 of [data] exactly as the hook delivered it (no run when
    [data] is absent or empty).  A run is therefore shown only when [data]
    is a non-empty sequence, and it is always its first element. *)
Theorem card_receives_first_run props env :
  error (snapshot props env) = None ->
  exists out regs,
    TerraformLatestRun props env [] = Ok (out, regs)
    /\ cardsOf out
       = [ (latest (data (snapshot props env)), workspaceName props) ]
    /\ (forall l, data (snapshot props env) = Some l ->
                  latest (data (snapshot props env)) = nth_error l 0)
    /\ (data (snapshot props env) = None ->
        latest (data (snapshot props env)) = None)
    /\ (forall r, latest (data (snapshot props env)) = Some r <->
                  exists rest, data (snapshot props env) = Some (r :: rest)).
Proof.
  intros He.
  destruct (render_shape props env []) as (out & Hr & _ & Hc).
  exists out, ([] ++ [ refetchEffect (refetchOf props env) ]).
  split; [ exact Hr | ]. split; [ exact (Hc He) | ].
  destruct (data (snapshot props env)) as [[|r0 rest0]|]; simpl.
  - split; [ intros l [= <-]; reflexivity | ].
    split; [ discriminate | ].
    intros r; split; [ discriminate | intros (rest & [=]) ].
  - split; [ intros l [= <-]; reflexivity | ].
    split; [ discriminate | ].
    intros r; split.
    + intros [= <-]. exists rest0. reflexivity.
    + intros (rest & [= <- _]). reflexivity.
  - split; [ discriminate | ]. split; [ reflexivity | ].
    intros r; split; [ discriminate | intros (rest & [=]) ].
Qed.

Lemma card_receives_first_run_witness :
  exists out regs,
    TerraformLatestRun (propsFor None)
      (mockUseRuns (Some [testDataUndefinedName; testDataValid]) None false
                   refetchMock) []
    = Ok (out, regs)
    /\ cardsOf out = [ (Some testDataUndefinedName, "demo-workspace") ]
    /\ (forall l, Some [testDataUndefinedName; testDataValid] = Some l ->
                  Some testDataUndefinedName = nth_error l 0)
    /\ (Some [testDataUndefinedName; testDataValid] = None ->
        Some testDataUndefinedName = None)
    /\ (forall r, Some testDataUndefinedName = Some r <->
                  exists rest,
                    Some [testDataUndefinedName; testDataValid]
                    = Some (r :: rest)).
Proof.
  apply (card_receives_first_run (propsFor None)
           (mockUseRuns (Some [testDataUndefinedName; testDataValid]) None
                        false refetchMock)).
  reflexivity.
Defined.

(** C9.  Rendering never throws: for every props and every hook snapshot
    (any [data], [error], [isLoading], [refetch]) the component body, the
    render function, returns an element.  The one operation of the body
    that can throw, indexing [data], is only reached when [data] is
    present.  The body only mentions [refetch]; the call [refetch()] is
    made later, by the effect, and is not part of this statement. *)
Theorem render_never_throws props env :
  (forall regs, exists out regs',
      TerraformLatestRun props env regs = Ok (out, regs'))
  /\ (forall regs, is_ok (TerraformLatestRun props env regs) = true)
  /\ is_ok (firstRun (data (snapshot props env))) = true.
Proof.
  split; [ | split ].
  - intros regs. destruct (render_shape props env regs) as (out & Hr & _).
    eauto.
  - intros regs. destruct (render_shape props env regs) as (out & Hr & _).
    rewrite Hr. reflexivity.
  - rewrite firstRun_latest. reflexivity.
Qed.

(* ===================================================================== *)
(** ** The empty and the populated card *)
(* ===================================================================== *)

(** C2, as stated, fails.  With [data = []], not loading, no error and
    [hideDescription] left out, the output does show the description
    sentence and the refresh control. *)
Lemma empty_state_keeps_header_counterexample :
  let props := propsFor None in
  let env := mockUseRuns (Some []) None false refetchMock in
  data (snapshot props env) = Some []
  /\ isLoading (snapshot props env) = false
  /\ error (snapshot props env) = None
  /\ hideDescription props = None
  /\ ~ (exists out regs,
          TerraformLatestRun props env [] = Ok (out, regs)
          /\ In "No runs for demo-workspace" (screenTexts (fun t => t) out)
          /\ showsDescription out = false
          /\ showsRefresh out = false).
Proof.
  repeat split.
  intros (out & regs & Hr & _ & Hd & _).
  vm_compute in Hr. injection Hr as <- _.
  vm_compute in Hd. discriminate Hd.
Qed.

(** C2, amended.  With [data] empty or absent, not loading and no error,
    the output shows [No runs for W]; the description sentence and the
    refresh control are omitted when [hideDescription] is enabled and are
    both present when it is not. *)
Theorem empty_state_output fmt props env :
  (data (snapshot props env) = None \/ data (snapshot props env) = Some []) ->
  isLoading (snapshot props env) = false ->
  error (snapshot props env) = None ->
  exists out regs,
    TerraformLatestRun props env [] = Ok (out, regs)
    /\ In ("No runs for " ++ workspaceName props)%string (screenTexts fmt out)
    /\ cardsOf out = [ (None, workspaceName props) ]
    /\ showsDescription out = negb (defaultTo false (hideDescription props))
    /\ showsRefresh out = negb (defaultTo false (hideDescription props)).
Proof.
  intros Hd _ He.
  assert (Hl : latest (data (snapshot props env)) = None)
    by (destruct Hd as [-> | ->]; reflexivity).
  destruct (defaultTo false (hideDescription props)) eqn:Hh.
  - eexists _, _. split; [ apply render_hidden; assumption | ].
    rewrite Hl. repeat split; try reflexivity. simpl. tauto.
  - eexists _, _. split; [ apply render_full; assumption | ].
    rewrite Hl. repeat split; try reflexivity. simpl. tauto.
Qed.

Lemma empty_state_output_witness :
  exists out regs,
    TerraformLatestRun (propsFor (Some true))
      (mockUseRuns None None false refetchMock) [] = Ok (out, regs)
    /\ In "No runs for demo-workspace" (screenTexts (fun t => t) out)
    /\ cardsOf out = [ (None, "demo-workspace") ]
    /\ showsDescription out = false
    /\ showsRefresh out = false.
Proof.
  apply (empty_state_output (fun t => t) (propsFor (Some true))
           (mockUseRuns None None false refetchMock)).
  - left; reflexivity.
  - reflexivity.
  - reflexivity.
Defined.

(** C8.  With [data = [run]] where the confirming user, or that user's
    name, is absent, no error and not loading, the output shows
    [Latest run for W], a [User] label, and [Unknown] as the user's name. *)
Theorem unknown_user_is_shown fmt props env run :
  data (snapshot props env) = Some [ run ] ->
  (confirmedBy run = None
   \/ exists u, confirmedBy run = Some u /\ name u = None) ->
  error (snapshot props env) = None ->
  isLoading (snapshot props env) = false ->
  exists out regs,
    TerraformLatestRun props env [] = Ok (out, regs)
    /\ cardsOf out = [ (Some run, workspaceName props) ]
    /\ cardView fmt None (Some run) (workspaceName props)
       = LatestRun (workspaceName props) (message run) (status run)
                   (fmt (createdAt run)) "Unknown"
    /\ In ("Latest run for " ++ workspaceName props)%string
          (screenTexts fmt out)
    /\ In "User" (screenTexts fmt out)
    /\ In "Unknown" (screenTexts fmt out).
Proof.
  intros Hd Hu He _.
  assert (Hn : userNameOf run = "Unknown").
  { unfold userNameOf. destruct Hu as [-> | (u & -> & ->)]; reflexivity. }
  assert (Hl : latest (data (snapshot props env)) = Some run)
    by (rewrite Hd; reflexivity).
  assert (Hv : cardView fmt None (Some run) (workspaceName props)
               = LatestRun (workspaceName props) (message run) (status run)
                           (fmt (createdAt run)) "Unknown")
    by (unfold cardView; simpl; rewrite Hn; reflexivity).
  destruct (defaultTo false (hideDescription props)) eqn:Hh.
  - eexists _, _. split; [ apply render_hidden; assumption | ].
    rewrite Hl. split; [ reflexivity | ]. split; [ exact Hv | ].
    unfold screenTexts, cardView. simpl. rewrite Hn. simpl. tauto.
  - eexists _, _. split; [ apply render_full; assumption | ].
    rewrite Hl. split; [ reflexivity | ]. split; [ exact Hv | ].
    unfold screenTexts, cardView. simpl. rewrite Hn. simpl. tauto.
Qed.

Lemma unknown_user_is_shown_witness :
  exists out regs,
    TerraformLatestRun (propsFor None)
      (mockUseRuns (Some [testDataUndefinedName]) None false refetchMock) []
    = Ok (out, regs)
    /\ cardsOf out = [ (Some testDataUndefinedName, "demo-workspace") ]
    /\ cardView (fun t => t) None (Some testDataUndefinedName) "demo-workspace"
       = LatestRun "demo-workspace" "this is a text message" "done"
                   "2023-05-24T10:23:40.172Z" "Unknown"
    /\ In "Latest run for demo-workspace" (screenTexts (fun t => t) out)
    /\ In "User" (screenTexts (fun t => t) out)
    /\ In "Unknown" (screenTexts (fun t => t) out).
Proof.
  apply (unknown_user_is_shown (fun t => t) (propsFor None)
           (mockUseRuns (Some [testDataUndefinedName]) None false refetchMock)
           testDataUndefinedName).
  - reflexivity.
  - left; reflexivity.
  - reflexivity.
  - reflexivity.
Defined.

(* ===================================================================== *)
(** ** When [refetch] is invoked *)
(* ===================================================================== *)

Lemma mount_shape w props env :
  exists out,
    TerraformLatestRun props env []
    = Ok (out, [ refetchEffect (refetchOf props env) ])
    /\ mount w props env
       = Ok ({| slots := [ refetchSlot (refetchOf props env) ];
                output := out |},
             [ effectCall (refetchOf props env) ]).
Proof.
  destruct (render_shape props env []) as (out & Hr & _).
  exists out. split; [ exact Hr | ].
  unfold mount. rewrite Hr. reflexivity.
Qed.

Lemma rerender_shape w inst props env f0 :
  slots inst = [ refetchSlot f0 ] ->
  exists out,
    TerraformLatestRun props env []
    = Ok (out, [ refetchEffect (refetchOf props env) ])
    /\ rerender w inst props env
       = Ok ({| slots := [ refetchSlot (refetchOf props env) ];
                output := out |},
             if Nat.eqb f0 (refetchOf props env) then []
             else [ effectCall (refetchOf props env) ]).
Proof.
  intros Hs. destruct (render_shape props env []) as (out & Hr & _).
  exists out. split; [ exact Hr | ].
  unfold rerender. rewrite Hr, Hs. simpl.
  destruct (Nat.eqb f0 (refetchOf props env)); reflexivity.
Qed.

Lemma click_calls w label inst :
  click w label inst = map handlerCall (handlersByLabel label (output inst)).
Proof. reflexivity. Qed.

Lemma handler_calls_are_not_effect_calls (hs : list FnRef) :
  filter isEffectCall (map handlerCall hs) = [].
Proof. induction hs as [|h hs IH]; [ reflexivity | exact IH ]. Qed.

Lemma handler_calls_all_counted (hs : list FnRef) :
  filter isHandlerCall (map handlerCall hs) = map handlerCall hs.
Proof.
  induction hs as [|h hs IH]; [ reflexivity | simpl; now rewrite IH ].
Qed.

Lemma refetchesAfter_only_effects prev refs :
  filter isHandlerCall (refetchesAfter prev refs) = [].
Proof.
  revert prev. induction refs as [|f fs IH]; intros prev; simpl.
  - reflexivity.
  - rewrite filter_app, IH. destruct (Nat.eqb prev f); reflexivity.
Qed.

(** Effects seen while feeding events to a mounted instance: exactly the
    ones the changes of the [refetch] reference call for. *)
Lemma run_effects w events :
  forall inst f0,
    slots inst = [ refetchSlot f0 ] ->
    exists final calls,
      run w inst events = Ok (final, calls)
      /\ filter isEffectCall calls = refetchesAfter f0 (rerenderRefs events)
      /\ (exists f, slots final = [ refetchSlot f ])
      /\ (forall w', run w' inst events = run w inst events).
Proof.
  induction events as [|[p e|label] rest IH]; intros inst f0 Hs.
  - exists inst, []. repeat split; eauto.
  - destruct (rerender_shape w inst p e f0 Hs) as (out & Hr & Hre).
    set (inst' := {| slots := [ refetchSlot (refetchOf p e) ];
                     output := out |}) in *.
    destruct (IH inst' (refetchOf p e) eq_refl)
      as (final & calls & Hrun & Hf & Hfin & Hw).
    eexists final, _. simpl. rewrite Hre, Hrun.
    split; [ reflexivity | ]. split; [ | split; [ exact Hfin | ] ].
    + rewrite filter_app, Hf.
      destruct (Nat.eqb f0 (refetchOf p e)); reflexivity.
    + intros w'.
      destruct (rerender_shape w' inst p e f0 Hs) as (out' & Hr' & Hre').
      rewrite Hr in Hr'. injection Hr' as <-.
      rewrite Hre'. fold inst'. rewrite (Hw w'), Hrun. reflexivity.
  - destruct (IH inst f0 Hs) as (final & calls & Hrun & Hf & Hfin & Hw).
    eexists final, _. simpl. rewrite Hrun.
    split; [ reflexivity | ]. split; [ | split; [ exact Hfin | ] ].
    + rewrite filter_app, click_calls, handler_calls_are_not_effect_calls.
      exact Hf.
    + intros w'. rewrite (Hw w'), Hrun, !click_calls. reflexivity.
Qed.

(** C4.  The effect calls of a whole session are: one [refetch()] at
    mount, then one for every re-render whose [refetch] reference differs
    from the previous render's, and none otherwise; clicks add no effect
    call.  The call is made with no arguments, nothing it returns is kept
    (no clean-up is stored) and the session is the same whatever the calls
    return. *)
Theorem refetch_on_mount_and_on_change w props env events :
  exists final calls,
    session w props env events = Ok (final, calls)
    /\ filter isEffectCall calls
       = effectCall (refetchOf props env)
         :: refetchesAfter (refetchOf props env) (rerenderRefs events)
    /\ (forall s, In s (slots final) -> cleanup s = None)
    /\ (forall w', session w' props env events = session w props env events).
Proof.
  destruct (mount_shape w props env) as (out & Hr & Hm).
  set (inst := {| slots := [ refetchSlot (refetchOf props env) ];
                  output := out |}) in *.
  destruct (run_effects w events inst (refetchOf props env) eq_refl)
    as (final & calls & Hrun & Hf & (f & Hfin) & Hw).
  exists final, ([ effectCall (refetchOf props env) ] ++ calls).
  unfold session. rewrite Hm, Hrun.
  split; [ reflexivity | ]. split; [ simpl; now rewrite Hf | ]. split.
  - intros s Hin. rewrite Hfin in Hin. destruct Hin as [<- | []].
    reflexivity.
  - intros w'. destruct (mount_shape w' props env) as (out' & Hr' & Hm').
    rewrite Hr in Hr'. injection Hr' as <-.
    rewrite Hm'. fold inst. rewrite (Hw w'), Hrun. reflexivity.
Qed.

Lemma handlers_of_full_layout label f ws r :
  handlersByLabel label (fullLayout f ws (TerraformLatestRunCard r ws))
  = if String.eqb label "Refresh" then [ f ] else [].
Proof.
  unfold handlersByLabel. cbn -[String.eqb]. unfold refreshLabel.
  rewrite (String.eqb_sym "Refresh" label).
  destruct (String.eqb label "Refresh"); reflexivity.
Qed.

Lemma clickedRefs_length label f events :
  length (clickedRefs label f events) = clicksOn label events.
Proof.
  revert f. induction events as [|[p e|l] rest IH]; intros f; simpl.
  - reflexivity.
  - apply IH.
  - rewrite length_app, IH. destruct (String.eqb l label); reflexivity.
Qed.

(** [n] clicks in a row on a mounted header reach its handler [n] times. *)
Lemma run_clicks w inst f ws r n :
  output inst = fullLayout f ws (TerraformLatestRunCard r ws) ->
  run w inst (repeat (Click "Refresh") n)
  = Ok (inst, repeat (handlerCall f) n).
Proof.
  intros Ho. induction n as [|n IH]; simpl.
  - reflexivity.
  - rewrite IH, click_calls, Ho, handlers_of_full_layout. reflexivity.
Qed.

(** Handler calls seen while feeding events to an instance that shows the
    header throughout: one per click on the refresh control, each to the
    [refetch] of the latest render. *)
Lemma run_handlers w events :
  forall inst f0 ws r,
    slots inst = [ refetchSlot f0 ] ->
    output inst = fullLayout f0 ws (TerraformLatestRunCard r ws) ->
    headerShownThroughout events ->
    exists final calls,
      run w inst events = Ok (final, calls)
      /\ filter isHandlerCall calls
         = map handlerCall (clickedRefs "Refresh" f0 events).
Proof.
  induction events as [|[p e|label] rest IH]; intros inst f0 ws r Hs Ho Hall.
  - exists inst, []. split; reflexivity.
  - destruct Hall as [[He Hh] Hall].
    destruct (rerender_shape w inst p e f0 Hs) as (out & Hr & Hre).
    rewrite (render_full p e [] He Hh) in Hr. injection Hr as <-.
    match type of Hre with _ = Ok (?i, _) => set (inst' := i) in * end.
    destruct (IH inst' (refetchOf p e) _ _ eq_refl eq_refl Hall)
      as (final & calls & Hrun & Hf).
    eexists final, _. simpl. rewrite Hre, Hrun.
    split; [ reflexivity | ].
    rewrite filter_app, Hf.
    destruct (Nat.eqb f0 (refetchOf p e)); reflexivity.
  - destruct (IH inst f0 ws r Hs Ho Hall) as (final & calls & Hrun & Hf).
    eexists final, _. simpl. rewrite Hrun.
    split; [ reflexivity | ].
    rewrite filter_app, click_calls, handler_calls_all_counted, Hf, Ho,
      handlers_of_full_layout, map_app.
    reflexivity.
Qed.

(** C5.  While the header is shown, [n] activations of the refresh
    control produce exactly [n] invocations of the injected [refetch], one
    per activation, each with the click event; nothing is coalesced.  Two
    activations in a row give two invocations.  The same holds when
    re-renders come between the clicks: the handler calls of a session are
    as many as its clicks on the control. *)
Theorem each_activation_invokes_refetch w props env :
  headerShown props env ->
  (forall n, exists final,
      session w props env (repeat (Click "Refresh") n)
      = Ok (final, effectCall (refetchOf props env)
                   :: repeat (handlerCall (refetchOf props env)) n))
  /\ (exists final,
        session w props env [ Click "Refresh"; Click "Refresh" ]
        = Ok (final, [ effectCall (refetchOf props env);
                       handlerCall (refetchOf props env);
                       handlerCall (refetchOf props env) ]))
  /\ (forall events,
        headerShownThroughout events ->
        exists final calls,
          session w props env events = Ok (final, calls)
          /\ filter isHandlerCall calls
             = map handlerCall
                   (clickedRefs "Refresh" (refetchOf props env) events)
          /\ length (filter isHandlerCall calls)
             = clicksOn "Refresh" events).
Proof.
  intros [He Hh].
  destruct (mount_shape w props env) as (out & Hr & Hm).
  rewrite (render_full props env [] He Hh) in Hr. injection Hr as <-.
  match type of Hm with _ = Ok (?i, _) => set (inst := i) in * end.
  assert (Hn : forall n, exists final,
      session w props env (repeat (Click "Refresh") n)
      = Ok (final, effectCall (refetchOf props env)
                   :: repeat (handlerCall (refetchOf props env)) n)).
  { intros n. exists inst. unfold session. rewrite Hm.
    rewrite (run_clicks w inst (refetchOf props env) (workspaceName props)
               (latest (data (snapshot props env))) n eq_refl).
    reflexivity. }
  split; [ exact Hn | ]. split; [ exact (Hn 2) | ].
  intros events Hall.
  destruct (run_handlers w events inst (refetchOf props env) _ _
              eq_refl eq_refl Hall) as (final & calls & Hrun & Hf).
  exists final, ([ effectCall (refetchOf props env) ] ++ calls).
  unfold session. rewrite Hm, Hrun. split; [ reflexivity | ].
  assert (Hc : filter isHandlerCall
                 ([ effectCall (refetchOf props env) ] ++ calls)
               = map handlerCall
                   (clickedRefs "Refresh" (refetchOf props env) events))
    by (simpl; exact Hf).
  split; [ exact Hc | ].
  rewrite Hc, length_map. apply clickedRefs_length.
Qed.

Lemma each_activation_invokes_refetch_witness :
  headerShown (propsFor None)
    (mockUseRuns (Some [testDataValid]) None false refetchMock)
  /\ exists final,
       session quietWorld (propsFor None)
         (mockUseRuns (Some [testDataValid]) None false refetchMock)
         [ Click "Refresh"; Click "Refresh" ]
       = Ok (final, [ effectCall refetchMock; handlerCall refetchMock;
                      handlerCall refetchMock ]).
Proof.
  assert (H : headerShown (propsFor None)
                (mockUseRuns (Some [testDataValid]) None false refetchMock))
    by (split; reflexivity).
  split; [ exact H | ].
  exact (proj1 (proj2 (each_activation_invokes_refetch quietWorld
                         (propsFor None)
                         (mockUseRuns (Some [testDataValid]) None false
                                      refetchMock) H))).
Defined.

(** C10.  The effect does not depend on what is rendered.  With an error
    in the snapshot the output is the error panel alone, and [refetch()] is
    still invoked once at mount; on a re-render that again carries an
    error it is invoked once more if the [refetch] reference changed, and
    not otherwise. *)
Theorem refetch_even_when_errored w props env e props' env' e' :
  error (snapshot props env) = Some e ->
  error (snapshot props' env') = Some e' ->
  (exists inst,
      mount w props env = Ok (inst, [ effectCall (refetchOf props env) ])
      /\ output inst = ResponseErrorPanel e)
  /\ (exists inst',
        session w props env [ Rerender props' env' ]
        = Ok (inst',
              effectCall (refetchOf props env)
              :: (if Nat.eqb (refetchOf props env) (refetchOf props' env')
                  then []
                  else [ effectCall (refetchOf props' env') ]))
        /\ output inst' = ResponseErrorPanel e').
Proof.
  intros He He'.
  destruct (mount_shape w props env) as (out & Hr & Hm).
  rewrite (render_error props env [] e He) in Hr. injection Hr as <-.
  match type of Hm with _ = Ok (?i, _) => set (inst := i) in * end.
  split; [ exists inst; split; [ exact Hm | reflexivity ] | ].
  destruct (rerender_shape w inst props' env' (refetchOf props env) eq_refl)
    as (out' & Hr' & Hre).
  rewrite (render_error props' env' [] e' He') in Hr'. injection Hr' as <-.
  exists {| slots := [ refetchSlot (refetchOf props' env') ];
            output := ResponseErrorPanel e' |}.
  split; [ | reflexivity ].
  unfold session. rewrite Hm. simpl. rewrite Hre, app_nil_r. reflexivity.
Qed.

Lemma refetch_even_when_errored_witness :
  (exists inst,
      mount promiseWorld (propsFor None)
        (mockUseRuns None (Some fakeError) false refetchMock)
      = Ok (inst, [ effectCall refetchMock ])
      /\ output inst = ResponseErrorPanel fakeError)
  /\ (exists inst',
        session promiseWorld (propsFor None)
          (mockUseRuns None (Some fakeError) false refetchMock)
          [ Rerender (propsFor None)
              (mockUseRuns None (Some fakeError) true 8) ]
        = Ok (inst', [ effectCall refetchMock; effectCall 8 ])
        /\ output inst' = ResponseErrorPanel fakeError).
Proof.
  apply (refetch_even_when_errored promiseWorld (propsFor None)
           (mockUseRuns None (Some fakeError) false refetchMock) fakeError
           (propsFor None) (mockUseRuns None (Some fakeError) true 8)
           fakeError); reflexivity.
Defined.

(* ===================================================================== *)
(** ** What a render depends on, and what it selects *)
(* ===================================================================== *)

Lemma headerVisible_true props env :
  headerVisible props env = true <->
  error (snapshot props env) = None
  /\ defaultTo false (hideDescription props) = false.
Proof.
  unfold headerVisible.
  destruct (error (snapshot props env)) as [e|];
    destruct (defaultTo false (hideDescription props)); simpl;
    split; try discriminate; try tauto;
    intros [H1 H2]; discriminate.
Qed.

(** X1.  A render reads its inputs only through the workspace name, the
    effective [hideDescription], and the snapshot's [error], first run and
    [refetch].  Two renders that agree on these give the same element and
    register the same effect: [isLoading], [organization], the runs after
    the first, and whether [hideDescription] was omitted or passed as
    [false] make no difference. *)
Theorem render_reads_only props1 env1 props2 env2 regs :
  workspaceName props1 = workspaceName props2 ->
  defaultTo false (hideDescription props1)
  = defaultTo false (hideDescription props2) ->
  error (snapshot props1 env1) = error (snapshot props2 env2) ->
  latest (data (snapshot props1 env1)) = latest (data (snapshot props2 env2)) ->
  refetchOf props1 env1 = refetchOf props2 env2 ->
  TerraformLatestRun props1 env1 regs = TerraformLatestRun props2 env2 regs.
Proof.
  intros Hw Hh He Hl Hf.
  destruct (error (snapshot props1 env1)) as [e|] eqn:He1.
  - rewrite (render_error props1 env1 regs e He1).
    rewrite (render_error props2 env2 regs e (eq_sym He)).
    rewrite Hf. reflexivity.
  - destruct (defaultTo false (hideDescription props1)) eqn:Hh1.
    + rewrite (render_hidden props1 env1 regs He1 Hh1).
      rewrite (render_hidden props2 env2 regs (eq_sym He) (eq_sym Hh)).
      rewrite Hw, Hl, Hf. reflexivity.
    + rewrite (render_full props1 env1 regs He1 Hh1).
      rewrite (render_full props2 env2 regs (eq_sym He) (eq_sym Hh)).
      rewrite Hw, Hl, Hf. reflexivity.
Qed.

Lemma render_reads_only_witness :
  TerraformLatestRun
    {| organization := "gluk"; workspaceName := "demo-workspace";
       hideDescription := None |}
    (mockUseRuns (Some [testDataValid; testDataUndefinedName]) None true
                 refetchMock) []
  = TerraformLatestRun
      {| organization := "another-org"; workspaceName := "demo-workspace";
         hideDescription := Some false |}
      (mockUseRuns (Some [testDataValid]) None false refetchMock) [].
Proof.
  apply (render_reads_only
           {| organization := "gluk"; workspaceName := "demo-workspace";
              hideDescription := None |}
           (mockUseRuns (Some [testDataValid; testDataUndefinedName]) None
                        true refetchMock)
           {| organization := "another-org";
              workspaceName := "demo-workspace";
              hideDescription := Some false |}
           (mockUseRuns (Some [testDataValid]) None false refetchMock) []);
    reflexivity.
Defined.

(** X2.  Every render shows exactly one of the two leaves: the error
    panel when the snapshot has an error, the run-summary card when it has
    none; never both, never neither.  Title, refresh control and
    description appear together, exactly when there is no error and the
    description is not hidden. *)
Theorem render_selects_one_view props env :
  exists out regs,
    TerraformLatestRun props env [] = Ok (out, regs)
    /\ errorPanelsOf out
       = match error (snapshot props env) with
         | Some e => [ e ]
         | None => []
         end
    /\ cardsOf out
       = match error (snapshot props env) with
         | Some _ => []
         | None => [ (latest (data (snapshot props env)),
                      workspaceName props) ]
         end
    /\ length (errorPanelsOf out) + length (cardsOf out) = 1
    /\ showsTitle out = headerVisible props env
    /\ showsRefresh out = headerVisible props env
    /\ showsDescription out = headerVisible props env.
Proof.
  unfold headerVisible.
  destruct (error (snapshot props env)) as [e|] eqn:He.
  - eexists _, _. split; [ apply render_error; exact He | ].
    repeat split; reflexivity.
  - destruct (defaultTo false (hideDescription props)) eqn:Hh.
    + eexists _, _. split; [ apply render_hidden; assumption | ].
      repeat split; reflexivity.
    + eexists _, _. split; [ apply render_full; assumption | ].
      repeat split; reflexivity.
Qed.

Lemma handlers_of_render props env out regs label :
  TerraformLatestRun props env [] = Ok (out, regs) ->
  handlersByLabel label out
  = if (String.eqb label "Refresh" && headerVisible props env)%bool
    then [ refetchOf props env ] else [].
Proof.
  unfold headerVisible. intros Hr.
  destruct (error (snapshot props env)) as [e|] eqn:He.
  - rewrite (render_error props env [] e He) in Hr. injection Hr as <- _.
    simpl. destruct (String.eqb label "Refresh"); reflexivity.
  - destruct (defaultTo false (hideDescription props)) eqn:Hh.
    + rewrite (render_hidden props env [] He Hh) in Hr.
      injection Hr as <- _.
      simpl. destruct (String.eqb label "Refresh"); reflexivity.
    + rewrite (render_full props env [] He Hh) in Hr.
      injection Hr as <- _.
      rewrite handlers_of_full_layout.
      destruct (String.eqb label "Refresh"); reflexivity.
Qed.

(** X3.  The only event handler a rendered tree exposes is the hook's
    [refetch], on the control labelled [Refresh], and only when the header
    is visible.  Under any other label, and in the error and
    hidden-description views, there is nothing to click. *)
Theorem only_handler_is_refetch props env label :
  exists out regs,
    TerraformLatestRun props env [] = Ok (out, regs)
    /\ handlersByLabel label out
       = if (String.eqb label "Refresh" && headerVisible props env)%bool
         then [ refetchOf props env ] else [].
Proof.
  destruct (render_shape props env []) as (out & Hr & _).
  eexists out, _. split; [ exact Hr | ].
  exact (handlers_of_render props env out _ label Hr).
Qed.

(* ===================================================================== *)
(** ** Whole sessions *)
(* ===================================================================== *)

Lemma mount_rendered w props env :
  exists inst,
    mount w props env = Ok (inst, [ effectCall (refetchOf props env) ])
    /\ rendered inst props env.
Proof.
  destruct (mount_shape w props env) as (out & Hr & Hm).
  eexists. split; [ exact Hm | ]. split; [ reflexivity | exact Hr ].
Qed.

Lemma rendered_is_fresh_mount w inst props env :
  rendered inst props env ->
  mount w props env = Ok (inst, [ effectCall (refetchOf props env) ]).
Proof.
  intros [Hs Hr]. unfold mount. rewrite Hr. simpl.
  destruct inst as [ss out]. simpl in *. subst ss. reflexivity.
Qed.

(** The calls made while events arrive, and what is left afterwards. *)
Lemma run_shape w events :
  forall inst p e,
    rendered inst p e ->
    exists final,
      run w inst events
      = Ok (final, expectedTrace (headerVisible p e) (refetchOf p e) events)
      /\ rendered final (fst (lastFrame p e events))
                        (snd (lastFrame p e events)).
Proof.
  induction events as [|[p' e'|label] rest IH]; intros inst p e Hi.
  - exists inst. split; [ reflexivity | exact Hi ].
  - destruct Hi as [Hs Hr].
    destruct (rerender_shape w inst p' e' (refetchOf p e) Hs)
      as (out & Hr' & Hre).
    match type of Hre with _ = Ok (?i, _) => set (inst' := i) in * end.
    destruct (IH inst' p' e' (conj eq_refl Hr')) as (final & Hrun & Hfin).
    exists final. simpl. rewrite Hre, Hrun. split; [ reflexivity | exact Hfin ].
  - destruct (IH inst p e Hi) as (final & Hrun & Hfin).
    exists final. simpl. rewrite Hrun. split; [ | exact Hfin ].
    rewrite click_calls.
    rewrite (handlers_of_render p e (output inst) _ label (proj2 Hi)).
    destruct (String.eqb label "Refresh" && headerVisible p e)%bool;
      reflexivity.
Qed.

Lemma session_shape w props env events :
  exists final,
    session w props env events
    = Ok (final,
          effectCall (refetchOf props env)
          :: expectedTrace (headerVisible props env) (refetchOf props env)
                           events)
    /\ rendered final (fst (lastFrame props env events))
                      (snd (lastFrame props env events)).
Proof.
  destruct (mount_rendered w props env) as (inst & Hm & Hi).
  destruct (run_shape w events inst props env Hi) as (final & Hrun & Hfin).
  exists final. unfold session. rewrite Hm, Hrun.
  split; [ reflexivity | exact Hfin ].
Qed.

(** X4.  The exact sequence of calls of any session, in order: the mount
    effect's [refetch()] first; then, event by event, a re-render calls the
    new [refetch()] if and only if the reference changed, and a click calls
    the latest render's [refetch] with the click event if and only if it
    is on the [Refresh] control and that render shows the header.  Nothing
    else is ever called. *)
Theorem session_call_trace w props env events :
  exists final,
    session w props env events
    = Ok (final,
          effectCall (refetchOf props env)
          :: expectedTrace (headerVisible props env) (refetchOf props env)
                           events).
Proof.
  destruct (session_shape w props env events) as (final & Hs & _).
  exists final. exact Hs.
Qed.

(** X5.  The view keeps no state of its own.  After any sequence of
    re-renders and clicks, the mounted instance (what is on screen and the
    effect React remembers) is exactly what mounting afresh with the
    latest props and snapshot gives. *)
Theorem view_is_stateless w props env events :
  exists final calls,
    session w props env events = Ok (final, calls)
    /\ mount w (fst (lastFrame props env events))
               (snd (lastFrame props env events))
       = Ok (final,
             [ effectCall (refetchOf (fst (lastFrame props env events))
                                     (snd (lastFrame props env events))) ]).
Proof.
  destruct (session_shape w props env events) as (final & Hs & Hfin).
  exists final. eexists. split; [ exact Hs | ].
  apply rendered_is_fresh_mount. exact Hfin.
Qed.

Lemma effect_calls_of_trace visible f events :
  filter isEffectCall (expectedTrace visible f events)
  = refetchesAfter f (rerenderRefs events).
Proof.
  revert visible f.
  induction events as [|[p e|label] rest IH]; intros visible f; simpl.
  - reflexivity.
  - rewrite filter_app, IH.
    destruct (Nat.eqb f (refetchOf p e)); reflexivity.
  - rewrite filter_app, IH.
    destruct (String.eqb label "Refresh" && visible)%bool; reflexivity.
Qed.

Lemma refetchesAfter_same f refs :
  allSame f refs = true -> refetchesAfter f refs = [].
Proof.
  induction refs as [|g rest IH]; simpl; [ reflexivity | ].
  destruct (Nat.eqb f g) eqn:E; simpl; [ | discriminate ].
  apply PeanoNat.Nat.eqb_eq in E. subst g. exact IH.
Qed.

Lemma refetchesAfter_fresh refs :
  forall prev,
    allFresh prev refs = true ->
    refetchesAfter prev refs = map effectCall refs.
Proof.
  induction refs as [|g rest IH]; intros prev; simpl; [ reflexivity | ].
  destruct (Nat.eqb prev g); simpl; [ discriminate | ].
  intros H. rewrite (IH g H). reflexivity.
Qed.

Lemma rerenderRefs_length events :
  length (rerenderRefs events) = rerenders events.
Proof.
  induction events as [|[p e|label] rest IH]; simpl; congruence.
Qed.

(** X6.  If the hook hands out the same [refetch] function on every
    render, the effect runs once for the whole life of the view: however
    many re-renders and clicks follow, the only effect call is the one at
    mount. *)
Theorem stable_refetch_runs_effect_once w props env events :
  allSame (refetchOf props env) (rerenderRefs events) = true ->
  exists final calls,
    session w props env events = Ok (final, calls)
    /\ filter isEffectCall calls = [ effectCall (refetchOf props env) ].
Proof.
  intros Hsame.
  destruct (session_shape w props env events) as (final & Hs & _).
  exists final. eexists. split; [ exact Hs | ].
  simpl. rewrite effect_calls_of_trace, (refetchesAfter_same _ _ Hsame).
  reflexivity.
Qed.

Lemma stable_refetch_runs_effect_once_witness :
  exists final calls,
    session quietWorld (propsFor None)
      (mockUseRuns None None true refetchMock)
      [ Rerender (propsFor None)
          (mockUseRuns (Some [testDataValid]) None false refetchMock);
        Click "Refresh";
        Rerender (propsFor None)
          (mockUseRuns None (Some fakeError) false refetchMock) ]
    = Ok (final, calls)
    /\ filter isEffectCall calls = [ effectCall refetchMock ].
Proof.
  apply (stable_refetch_runs_effect_once quietWorld (propsFor None)
           (mockUseRuns None None true refetchMock)
           [ Rerender (propsFor None)
               (mockUseRuns (Some [testDataValid]) None false refetchMock);
             Click "Refresh";
             Rerender (propsFor None)
               (mockUseRuns None (Some fakeError) false refetchMock) ]).
  reflexivity.
Defined.

(** X7.  If the hook hands out a new [refetch] function on every render,
    every re-render invokes it: the effect calls are the mount call
    followed by one call per re-render, to that render's [refetch]. *)
Theorem fresh_refetch_runs_effect_every_render w props env events :
  allFresh (refetchOf props env) (rerenderRefs events) = true ->
  exists final calls,
    session w props env events = Ok (final, calls)
    /\ filter isEffectCall calls
       = effectCall (refetchOf props env)
         :: map effectCall (rerenderRefs events)
    /\ length (filter isEffectCall calls) = 1 + rerenders events.
Proof.
  intros Hfresh.
  destruct (session_shape w props env events) as (final & Hs & _).
  exists final. eexists. split; [ exact Hs | ].
  simpl. rewrite effect_calls_of_trace, (refetchesAfter_fresh _ _ Hfresh).
  split; [ reflexivity | ].
  simpl. rewrite length_map, rerenderRefs_length. reflexivity.
Qed.

Lemma fresh_refetch_runs_effect_every_render_witness :
  exists final calls,
    session quietWorld (propsFor None)
      (mockUseRuns None None true 1)
      [ Rerender (propsFor None) (mockUseRuns None None true 2);
        Rerender (propsFor None)
          (mockUseRuns (Some [testDataValid]) None false 3) ]
    = Ok (final, calls)
    /\ filter isEffectCall calls
       = [ effectCall 1; effectCall 2; effectCall 3 ]
    /\ length (filter isEffectCall calls) = 3.
Proof.
  apply (fresh_refetch_runs_effect_every_render quietWorld (propsFor None)
           (mockUseRuns None None true 1)
           [ Rerender (propsFor None) (mockUseRuns None None true 2);
             Rerender (propsFor None)
               (mockUseRuns (Some [testDataValid]) None false 3) ]).
  reflexivity.
Defined.

Lemma trace_length_with_header events :
  forall f,
    headerShownThroughout events ->
    length (expectedTrace true f events)
    = length (refetchesAfter f (rerenderRefs events))
      + clicksOn "Refresh" events.
Proof.
  induction events as [|[p e|label] rest IH]; intros f Hall; simpl.
  - reflexivity.
  - destruct Hall as [Hh Hall].
    rewrite (proj2 (headerVisible_true p e) Hh).
    rewrite !length_app, (IH _ Hall). lia.
  - rewrite length_app, (IH _ Hall).
    destruct (String.eqb label "Refresh"); simpl; lia.
Qed.

(** X8.  How often [refetch] is called in all.  While the header is shown
    on every render, the number of calls of a session is one (the mount
    effect) plus one per re-render that brought a new [refetch] reference
    plus one per click on the refresh control.  Mounting and clicking
    twice therefore makes three calls, not two. *)
Theorem total_calls_with_header w props env events :
  headerShown props env ->
  headerShownThroughout events ->
  exists final calls,
    session w props env events = Ok (final, calls)
    /\ length calls
       = 1
         + length (refetchesAfter (refetchOf props env) (rerenderRefs events))
         + clicksOn "Refresh" events.
Proof.
  intros Hh Hall.
  destruct (session_shape w props env events) as (final & Hs & _).
  exists final. eexists. split; [ exact Hs | ].
  rewrite (proj2 (headerVisible_true props env) Hh).
  simpl. rewrite (trace_length_with_header events _ Hall). reflexivity.
Qed.

Lemma total_calls_with_header_witness :
  exists final calls,
    session quietWorld (propsFor None)
      (mockUseRuns (Some [testDataValid]) None false refetchMock)
      [ Click "Refresh"; Click "Refresh" ]
    = Ok (final, calls)
    /\ length calls = 3.
Proof.
  apply (total_calls_with_header quietWorld (propsFor None)
           (mockUseRuns (Some [testDataValid]) None false refetchMock)
           [ Click "Refresh"; Click "Refresh" ]).
  - split; reflexivity.
  - exact I.
Defined.
